(** * Verification of the marketplace backend (Express listings API) and of the
    admin Payments view (React component).

    Sources: [src/Backend/index.js] and the Payments page component.
    JavaScript strings are modelled as Rocq [string]s read as sequences of
    Latin-1 code units; JavaScript numbers that the code only uses as integers
    are modelled as [Z]. *)

From Stdlib Require Import ZArith List Bool String Ascii Permutation Sorted Lia.
From Stdlib Require Import QArith.
From Stdlib Require Import Numbers.DecimalString Numbers.DecimalPos.
Import ListNotations.
Open Scope string_scope.

(* ------------------------------------------------------------------------ *)
(** ** JavaScript string primitives *)

Module JS.

(** [String.prototype.toLowerCase] on Latin-1 code units: [A-Z] and the
    Latin-1 capitals U+00C0..U+00DE (except U+00D7) are shifted by 32. *)
Definition lower_char (c : ascii) : ascii :=
  let n := nat_of_ascii c in
  if ((65 <=? n) && (n <=? 90))%nat
     || ((192 <=? n) && (n <=? 222) && negb (n =? 215))%nat
  then ascii_of_nat (n + 32)
  else c.

Fixpoint toLowerCase (s : string) : string :=
  match s with
  | EmptyString => EmptyString
  | String c s' => String (lower_char c) (toLowerCase s')
  end.

(** [s.startsWith(t)] *)
Fixpoint startsWith (s t : string) : bool :=
  match t, s with
  | EmptyString, _ => true
  | String _ _, EmptyString => false
  | String c t', String d s' => Ascii.eqb c d && startsWith s' t'
  end.

(** [s.includes(t)]: [t] occurs in [s] at some index. *)
Fixpoint includes (s t : string) : bool :=
  startsWith s t ||
  match s with
  | EmptyString => false
  | String _ s' => includes s' t
  end.

(** Truthiness of a nullable string ([null], [undefined] and [""] are
    falsy). *)
Definition truthy_str (o : option string) : bool :=
  match o with
  | Some s => negb (String.eqb s "")
  | None => false
  end.

(** [a || b] where [a] is a nullable string and [b] a string. *)
Definition or_str (o : option string) (d : string) : string :=
  match o with
  | Some s => if String.eqb s "" then d else s
  | None => d
  end.

(** Template-literal rendering of an integer: [`${n}`]. *)
Definition z_to_string (n : Z) : string :=
  NilEmpty.string_of_int (Z.to_int n).

(** Whitespace skipped by [parseInt] (StrWhiteSpaceChar and line terminators
    within Latin-1: TAB, LF, VT, FF, CR, SPACE, NBSP). *)
Definition is_ws (c : ascii) : bool :=
  let n := nat_of_ascii c in
  ((9 <=? n) && (n <=? 13))%nat || (n =? 32)%nat || (n =? 160)%nat.

Fixpoint trim_start (s : string) : string :=
  match s with
  | String c s' => if is_ws c then trim_start s' else s
  | EmptyString => EmptyString
  end.

(** Value of a digit in radices up to 36, or [None]. *)
Definition digit_value (c : ascii) : option Z :=
  let n := nat_of_ascii c in
  if ((48 <=? n) && (n <=? 57))%nat then Some (Z.of_nat n - 48)%Z
  else if ((97 <=? n) && (n <=? 122))%nat then Some (Z.of_nat n - 87)%Z
  else if ((65 <=? n) && (n <=? 90))%nat then Some (Z.of_nat n - 55)%Z
  else None.

(** The longest prefix of radix-[r] digits, folded into [acc]; returns the
    accumulated value and whether at least one digit was read. *)
Fixpoint read_digits (r : Z) (s : string) (acc : Z) (seen : bool) : Z * bool :=
  match s with
  | String c s' =>
      match digit_value c with
      | Some d => if (d <? r)%Z then read_digits r s' (acc * r + d)%Z true
                  else (acc, seen)
      | None => (acc, seen)
      end
  | EmptyString => (acc, seen)
  end.

(** [parseInt(string)] with no radix (ECMA-262 §19.2.5): trim leading white
    space, optional sign, an optional [0x]/[0X] prefix selecting radix 16,
    then the longest run of digits.  [None] is [NaN].  The value is the
    mathematical integer ([-0] is [0]). *)
Definition parseInt (input : string) : option Z :=
  let s := trim_start input in
  let '(sign, s) :=
    match s with
    | String "-" s' => ((-1)%Z, s')
    | String "+" s' => (1%Z, s')
    | _ => (1%Z, s)
    end in
  let '(r, s) :=
    match s with
    | String "0" (String "x" s') => (16%Z, s')
    | String "0" (String "X" s') => (16%Z, s')
    | _ => (10%Z, s)
    end in
  let '(v, seen) := read_digits r s 0%Z false in
  if seen then Some (sign * v)%Z else None.

(** A request-body field as read by destructuring [req.body]: [undefined]
    when absent.  [parseInt(undefined)] parses the string ["undefined"]. *)
Definition parseInt_field (f : option string) : option Z :=
  parseInt (match f with Some s => s | None => "undefined" end).

(** [n || undefined] on the result of [parseInt]: [NaN], [0] and [-0] are
    falsy. *)
Definition or_undefined (n : option Z) : option Z :=
  match n with
  | Some z => if (z =? 0)%Z then None else Some z
  | None => None
  end.

(** [path.extname] (POSIX), following Node's implementation: scanning from
    the end, [startDot] is the last dot of the last path part, [end_] one past
    its last non-slash character, and [preDot] records whether a non-dot
    character precedes that dot in the part. *)
Fixpoint ext_scan (rcs : list ascii) (i startDot startPart end_ : Z)
    (matchedSlash : bool) (preDot : Z) : Z * Z * Z * Z :=
  match rcs with
  | [] => (startDot, startPart, end_, preDot)
  | c :: rest =>
      if Ascii.eqb c "/" then
        if negb matchedSlash then (startDot, (i + 1)%Z, end_, preDot)
        else ext_scan rest (i - 1) startDot startPart end_ matchedSlash preDot
      else
        let '(end', matched') :=
          if (end_ =? -1)%Z then ((i + 1)%Z, false) else (end_, matchedSlash) in
        if Ascii.eqb c "." then
          if (startDot =? -1)%Z
          then ext_scan rest (i - 1) i startPart end' matched' preDot
          else ext_scan rest (i - 1) startDot startPart end' matched'
                 (if negb (preDot =? 1)%Z then 1%Z else preDot)
        else
          ext_scan rest (i - 1) startDot startPart end' matched'
            (if negb (startDot =? -1)%Z then (-1)%Z else preDot)
  end.

Definition extname (p : string) : string :=
  let cs := list_ascii_of_string p in
  let '(startDot, startPart, end_, preDot) :=
    ext_scan (rev cs) (Z.of_nat (List.length cs) - 1) (-1) 0 (-1) true 0 in
  if (startDot =? -1)%Z || (end_ =? -1)%Z || (preDot =? 0)%Z
     || ((preDot =? 1)%Z && (startDot =? end_ - 1)%Z
         && (startDot =? startPart + 1)%Z)
  then ""
  else substring (Z.to_nat startDot) (Z.to_nat (end_ - startDot)) p.

End JS.

(* ------------------------------------------------------------------------ *)
(** ** Backend: [src/Backend/index.js] *)

Module Backend.

(** A file part of a multipart request, as multer sees it. *)
Record UploadFile := {
  fieldname : string;
  originalname : string;
  mimetype : string;
  size : Z               (** bytes streamed for this part *)
}.

(** A file accepted and written by [multer.diskStorage]. *)
Record StoredFile := {
  sf_originalname : string;
  filename : string
}.

(** The text fields of the form, as destructured from [req.body]; [None] is
    [undefined] (field absent). *)
Record Body := {
  b_title : option string;
  b_type : option string;
  b_breed : option string;
  b_age : option string;
  b_weight : option string;
  b_price : option string;
  b_location : option string;
  b_description : option string;
  b_forEid : option string
}.

Record Listing := {
  id : Z;
  title : option string;
  type : option string;
  breed : option string;
  age : option Z;
  weight : option Z;
  price : option Z;
  location : option string;
  description : option string;
  images : list string;
  status : string;
  listed : string;
  rating : Q;
  forEid : bool
}.

Inductive UploadError :=
| LIMIT_UNEXPECTED_FILE (field : string)   (** MulterError: too many files / wrong field *)
| LIMIT_FILE_SIZE (field : string)         (** MulterError: file too large *)
| FilterError (message : string).          (** error passed to the fileFilter callback *)

(** [limits: { fileSize: 5 * 1024 * 1024 }] *)
Definition fileSize_limit : Z := 5 * 1024 * 1024.

(** [/jpeg|jpg|png/.test(s)]: the unanchored alternation matches when one of
    the three words occurs anywhere in [s]. *)
Definition filetypes_test (s : string) : bool :=
  JS.includes s "jpeg" || JS.includes s "jpg" || JS.includes s "png".

(** The [fileFilter] option: [true] is [cb(null, true)]. *)
Definition fileFilter (f : UploadFile) : bool :=
  let extname := filetypes_test (JS.toLowerCase (JS.extname (originalname f))) in
  let mimetype := filetypes_test (mimetype f) in
  extname && mimetype.

(** The [filename] callback of [diskStorage]: [`${Date.now()}-${originalname}`]. *)
Definition disk_filename (now : Z) (f : UploadFile) : string :=
  JS.z_to_string now ++ "-" ++ originalname f.

(** [upload.array(field, maxCount)]: each file part in arrival order is
    checked against the field name and count limit, then [fileFilter], then
    the size limit (busboy signals the limit once more than [fileSize] bytes
    arrive), and is stored; the first failure aborts the request. *)
Fixpoint upload_array_from (field : string) (maxCount : nat) (now : Z)
    (files : list UploadFile) (stored : list StoredFile)
    : list StoredFile + UploadError :=
  match files with
  | [] => inl (rev stored)
  | f :: rest =>
      if negb (String.eqb (fieldname f) field)
         || (maxCount <=? List.length stored)%nat
      then inr (LIMIT_UNEXPECTED_FILE (fieldname f))
      else if negb (fileFilter f)
      then inr (FilterError "Only JPEG/PNG images are allowed")
      else if (fileSize_limit <? size f)%Z
      then inr (LIMIT_FILE_SIZE (fieldname f))
      else upload_array_from field maxCount now rest
             ({| sf_originalname := originalname f;
                 filename := disk_filename now f |} :: stored)
  end.

Definition upload_array (field : string) (maxCount : nat) (now : Z)
    (files : list UploadFile) : list StoredFile + UploadError :=
  upload_array_from field maxCount now files [].

Section Server.

(** [new Date().toISOString()] at a given instant (epoch milliseconds). *)
Variable toISOString : Z -> string.

(** The handler of [app.post('/listings', ...)], run after multer succeeded:
    builds [newListing] and pushes it onto [listings]. *)
Definition post_listings_handler (listings : list Listing) (body : Body)
    (files : list StoredFile) (now : Z) : Listing * list Listing :=
  let imageUrls := map (fun file => "/uploads/" ++ filename file) files in
  let newListing := {|
    id := Z.of_nat (List.length listings) + 1;
    title := b_title body;
    type := b_type body;
    breed := b_breed body;
    age := JS.or_undefined (JS.parseInt_field (b_age body));
    weight := JS.or_undefined (JS.parseInt_field (b_weight body));
    price := JS.or_undefined (JS.parseInt_field (b_price body));
    location := b_location body;
    description := b_description body;
    images := imageUrls;
    status := "active";
    listed := toISOString now;
    rating := 9 # 2;
    forEid := match b_forEid body with
              | Some s => String.eqb s "true"
              | None => false
              end
  |} in
  (newListing, (listings ++ [newListing])%list).

Inductive Request :=
| GetListings
| PostListings (body : Body) (files : list UploadFile) (now : Z).

Inductive Response :=
| Json (l : list Listing)                    (** [res.json(listings)] *)
| Created (l : Listing)                      (** [res.status(201).json(newListing)] *)
| ErrorResponse (code : Z) (e : UploadError). (** Express's default error handler *)

(** One request against the process-wide [listings] array.  A multer error
    is passed to [next(err)]; Express's default handler answers 500 and the
    route handler does not run. *)
Definition step (listings : list Listing) (r : Request) : list Listing * Response :=
  match r with
  | GetListings => (listings, Json listings)
  | PostListings body files now =>
      match upload_array "images" 5 now files with
      | inr e => (listings, ErrorResponse 500 e)
      | inl stored =>
          let '(l, listings') := post_listings_handler listings body stored now in
          (listings', Created l)
      end
  end.

(** A process lifetime: [let listings = []] then requests one after the
    other (handlers run to completion on the single event loop). *)
Fixpoint run_from (listings : list Listing) (rs : list Request)
    : list Listing * list Response :=
  match rs with
  | [] => (listings, [])
  | r :: rs' =>
      let '(listings1, resp) := step listings r in
      let '(listings2, resps) := run_from listings1 rs' in
      (listings2, resp :: resps)
  end.

Definition run (rs : list Request) : list Listing * list Response :=
  run_from [] rs.

(** Identifiers of the listings created by the successful POSTs, in order. *)
Fixpoint created_ids (resps : list Response) : list Z :=
  match resps with
  | [] => []
  | Created l :: rest => id l :: created_ids rest
  | _ :: rest => created_ids rest
  end.

End Server.

End Backend.

(* ------------------------------------------------------------------------ *)
(** ** Frontend: the admin Payments view *)

Module Payments.

Record Item := { item_id : string; item_title : string; item_price : Z }.

Record Details := {
  bankName : option string;
  accountNumber : option string;
  stripePaymentIntentId : option string
}.

(** A raw order of [GET /payment/admin/all]; [None] is a JSON [null] or a
    missing key. *)
Record RawOrder := {
  o_id : string;
  o_orderId : string;
  o_buyer : option string;
  o_seller : option string;
  o_buyerId : option Z;
  o_total : Z;
  o_subtotal : Z;
  o_tax : Z;
  o_paymentMethod : string;
  o_paymentDetails : option Details;
  o_status : string;
  o_date : option string;
  o_items : option (list Item)
}.

(** [interface Payment] *)
Record Payment := {
  id : string;
  orderId : string;
  buyer : option string;
  seller : option string;
  buyerId : option Z;
  amount : Z;
  total : Z;
  subtotal : Z;
  tax : Z;
  method : string;
  paymentMethod : string;
  paymentDetails : option Details;
  status : string;
  date : option string;
  items : list Item
}.

(** [`Buyer ID: ${order.buyerId || 'Unknown'}`] *)
Definition buyer_fallback (buyerId : option Z) : string :=
  "Buyer ID: " ++
  match buyerId with
  | Some n => if (n =? 0)%Z then "Unknown" else JS.z_to_string n
  | None => "Unknown"
  end.

(** The callback of [response.data.map] building [transformedPayments]. *)
Definition transform (order : RawOrder) : Payment := {|
  id := o_id order;
  orderId := o_orderId order;
  buyer := Some (JS.or_str (o_buyer order) (buyer_fallback (o_buyerId order)));
  seller := Some (JS.or_str (o_seller order) "Unknown Seller");
  buyerId := o_buyerId order;
  amount := o_total order;
  total := o_total order;
  subtotal := o_subtotal order;
  tax := o_tax order;
  method := o_paymentMethod order;
  paymentMethod := o_paymentMethod order;
  paymentDetails := o_paymentDetails order;
  status := o_status order;
  date := o_date order;
  items := match o_items order with Some l => l | None => [] end
|}.

Inductive Direction := Asc | Desc.

(** The component state ([useState] hooks) together with the observable
    effects: notifications shown by [toast.error] and console lines. *)
Record View := {
  payments : list Payment;
  searchTerm : string;
  sortColumn : option string;
  sortDirection : Direction;
  isLoading : bool;
  toasts : list string;
  console : list string
}.

Definition initial_view : View := {|
  payments := [];
  searchTerm := "";
  sortColumn := None;
  sortDirection := Asc;
  isLoading := true;
  toasts := [];
  console := []
|}.

Definition setPayments (ps : list Payment) (v : View) : View :=
  {| payments := ps; searchTerm := searchTerm v; sortColumn := sortColumn v;
     sortDirection := sortDirection v; isLoading := isLoading v;
     toasts := toasts v; console := console v |}.
Definition setSortColumn (c : option string) (v : View) : View :=
  {| payments := payments v; searchTerm := searchTerm v; sortColumn := c;
     sortDirection := sortDirection v; isLoading := isLoading v;
     toasts := toasts v; console := console v |}.
Definition setSortDirection (d : Direction) (v : View) : View :=
  {| payments := payments v; searchTerm := searchTerm v; sortColumn := sortColumn v;
     sortDirection := d; isLoading := isLoading v;
     toasts := toasts v; console := console v |}.
Definition setIsLoading (b : bool) (v : View) : View :=
  {| payments := payments v; searchTerm := searchTerm v; sortColumn := sortColumn v;
     sortDirection := sortDirection v; isLoading := b;
     toasts := toasts v; console := console v |}.
Definition add_toast (msg : string) (v : View) : View :=
  {| payments := payments v; searchTerm := searchTerm v; sortColumn := sortColumn v;
     sortDirection := sortDirection v; isLoading := isLoading v;
     toasts := (toasts v ++ [msg])%list; console := console v |}.
Definition add_console (msg : string) (v : View) : View :=
  {| payments := payments v; searchTerm := searchTerm v; sortColumn := sortColumn v;
     sortDirection := sortDirection v; isLoading := isLoading v;
     toasts := toasts v; console := (console v ++ [msg])%list |}.

(** *** The async effect of [useEffect]: a state and exception monad *)

Inductive Exn :=
| AxiosError (message : string)   (** rejection of [axios.get] *)
| TypeError (message : string).   (** [response.data.map] on a non-array *)

Definition M (A : Type) := View -> View * (A + Exn).

Definition ret {A} (a : A) : M A := fun v => (v, inl a).
Definition bind {A B} (m : M A) (k : A -> M B) : M B :=
  fun v => match m v with
           | (v', inl a) => k a v'
           | (v', inr e) => (v', inr e)
           end.
Definition throw {A} (e : Exn) : M A := fun v => (v, inr e).
Definition modify (f : View -> View) : M unit := fun v => (f v, inl tt).

Notation "x <- m ;; k" := (bind m (fun x => k))
  (at level 61, m at next level, right associativity).
Notation "m ;; k" := (bind m (fun _ => k)) (at level 61, right associativity).

(** [try { body } catch (error) { handler } finally { fin }] *)
Definition try_catch_finally (body : M unit) (handler : Exn -> M unit)
    (fin : M unit) : M unit :=
  fun v =>
    let '(v1, r1) := body v in
    let '(v2, r2) := match r1 with
                     | inl _ => (v1, inl tt)
                     | inr e => handler e v1
                     end in
    let '(v3, r3) := fin v2 in
    match r3 with
    | inr e => (v3, inr e)
    | inl _ => (v3, r2)
    end.

(** How the request settles: the response body ([None] when [data] is not an
    array) or a rejection of [axios.get] (network failure, non-2xx status). *)
Inductive FetchOutcome :=
| Resolved (data : option (list RawOrder))
| Rejected (message : string).

Definition axios_get (o : FetchOutcome) : M (option (list RawOrder)) :=
  match o with
  | Resolved d => ret d
  | Rejected m => throw (AxiosError m)
  end.

Definition fetch_error_message : string :=
  "Failed to load payment data. Please try again.".

Definition fetchPayments (o : FetchOutcome) : M unit :=
  try_catch_finally
    (modify (setIsLoading true) ;;
     data <- axios_get o ;;
     modify (add_console "Payment data from backend:") ;;
     transformed <- match data with
                    | Some l => ret (map transform l)
                    | None => throw (TypeError "response.data.map is not a function")
                    end ;;
     modify (setPayments transformed))
    (fun _ => modify (add_console "Error fetching payments:") ;;
              modify (add_toast fetch_error_message))
    (modify (setIsLoading false)).

(** *** Sorting state *)

Definition handleSort (column : string) (v : View) : View :=
  match sortColumn v with
  | Some c =>
      if String.eqb c column
      then setSortDirection (match sortDirection v with
                             | Asc => Desc | Desc => Asc end) v
      else setSortDirection Asc (setSortColumn (Some column) v)
  | None => setSortDirection Asc (setSortColumn (Some column) v)
  end.

(** *** Search *)

Definition search_match (searchTerm : string) (payment : Payment) : bool :=
  let t := JS.toLowerCase searchTerm in
  (JS.truthy_str (buyer payment) &&
     JS.includes (JS.toLowerCase (JS.or_str (buyer payment) "")) t)
  || (JS.truthy_str (seller payment) &&
        JS.includes (JS.toLowerCase (JS.or_str (seller payment) "")) t)
  || JS.includes (JS.toLowerCase (orderId payment)) t
  || JS.includes (JS.toLowerCase (paymentMethod payment)) t.

Definition filteredPayments (v : View) : list Payment :=
  filter (search_match (searchTerm v)) (payments v).

(** [Array.prototype.sort] with a comparator: stable since ES2019, so for a
    consistent comparator the result is the stable ordering computed by
    insertion: an element goes before the first later one it does not
    exceed. *)
Fixpoint insert_by {A} (cmp : A -> A -> Z) (x : A) (l : list A) : list A :=
  match l with
  | [] => [x]
  | y :: l' => if (cmp x y <=? 0)%Z then x :: y :: l' else y :: insert_by cmp x l'
  end.

Fixpoint sort_by {A} (cmp : A -> A -> Z) (l : list A) : list A :=
  match l with
  | [] => []
  | x :: l' => insert_by cmp x (sort_by cmp l')
  end.

Section Rendering.

(** [a.localeCompare(b)] under the browser's locale. *)
Variable localeCompare : string -> string -> Z.
(** [new Date(s).getTime()] *)
Variable getTime : string -> Z.
(** [new Date(s).toLocaleDateString('en-PK')] *)
Variable toLocaleDateString : string -> string.

Definition date_value (d : option string) : Z :=
  if JS.truthy_str d then getTime (JS.or_str d "") else 0.

Definition compare_payments (v : View) (a b : Payment) : Z :=
  match sortColumn v with
  | None => 0
  | Some c =>
      let direction := match sortDirection v with Asc => 1 | Desc => -1 end in
      if String.eqb c "date" then direction * (date_value (date a) - date_value (date b))
      else if String.eqb c "amount" then direction * (amount a - amount b)
      else if String.eqb c "buyer" then
        direction * localeCompare (JS.or_str (buyer a) "") (JS.or_str (buyer b) "")
      else if String.eqb c "seller" then
        direction * localeCompare (JS.or_str (seller a) "") (JS.or_str (seller b) "")
      else if String.eqb c "status" then
        direction * localeCompare (status a) (status b)
      else 0
  end%Z.

Definition sortedPayments (v : View) : list Payment :=
  sort_by (compare_payments v) (filteredPayments v).

Definition filterPaymentsByStatus (v : View) (s : string) : list Payment :=
  if String.eqb s "all-payments" then sortedPayments v
  else filter (fun payment => String.eqb (JS.toLowerCase (status payment))
                                         (JS.toLowerCase s))
              (sortedPayments v).

Definition status_count (v : View) (s : string) : nat :=
  List.length (filter (fun p => String.eqb (JS.toLowerCase (status p)) s) (payments v)).

(** The four [TabsTrigger]s with their counts. *)
Definition tab_triggers (v : View) : list (string * nat) :=
  [("all-payments", List.length (payments v));
   ("completed", status_count v "completed");
   ("pending", status_count v "pending");
   ("cancelled", status_count v "cancelled")].

Definition tabs : list string := ["all-payments"; "completed"; "pending"; "cancelled"].

Definition formatDate (dateString : option string) : string :=
  if JS.truthy_str dateString then toLocaleDateString (JS.or_str dateString "")
  else "N/A".

Definition formatPaymentDetails (details : option Details) : string :=
  match details with
  | None => "N/A"
  | Some d =>
      if JS.truthy_str (bankName d) && JS.truthy_str (accountNumber d)
      then JS.or_str (bankName d) "" ++ " - " ++ JS.or_str (accountNumber d) ""
      else if JS.truthy_str (stripePaymentIntentId d) then "Stripe Payment"
      else "N/A"
  end.

(** [getStatusColor] *)
Definition getStatusColor (status : string) : string :=
  let s := JS.toLowerCase status in
  if String.eqb s "completed" then "bg-green-500"
  else if String.eqb s "pending" then "bg-yellow-500"
  else if String.eqb s "cancelled" then "bg-red-500"
  else "bg-gray-500".

(** The cells of a table row that the claims are about. *)
Record Row := {
  cell_orderId : string;
  cell_buyer : string;
  cell_seller : string;
  cell_details : string;
  cell_status : string;
  cell_date : string
}.

Definition render_row (payment : Payment) : Row := {|
  cell_orderId := orderId payment;
  cell_buyer := JS.or_str (buyer payment) "Unknown";
  cell_seller := JS.or_str (seller payment) "Unknown";
  cell_details := formatPaymentDetails (paymentDetails payment);
  cell_status := status payment;
  cell_date := formatDate (date payment)
|}.

Inductive Screen :=
| LoadingScreen
| NoPaymentsFound
| TabsScreen (triggers : list (string * nat))
             (contents : list (string * list Row)).

Definition render (v : View) : Screen :=
  if isLoading v then LoadingScreen
  else match payments v with
       | [] => NoPaymentsFound
       | _ => TabsScreen (tab_triggers v)
                (map (fun tab => (tab, map render_row (filterPaymentsByStatus v tab))) tabs)
       end.

End Rendering.

End Payments.

(* ------------------------------------------------------------------------ *)
(** ** Definitions used by the statements *)

Module BackendSpec.
Import Backend.
Local Open Scope Z_scope.

(** [start, start+1, ..., start+k-1] *)
Fixpoint zseq (start : Z) (k : nat) : list Z :=
  match k with
  | O => []
  | S k' => start :: zseq (start + 1) k'
  end.

(** A form with [age = "0"] and no other numeric field. *)
Definition body_age_zero : Body := {|
  b_title := Some "Goat"; b_type := Some "goat"; b_breed := None;
  b_age := Some "0"; b_weight := None; b_price := None;
  b_location := None; b_description := None; b_forEid := None
|}.

(** A part named [a.xpng] declared as [image/png]: its extension is not a
    JPEG or PNG extension. *)
Definition xpng_file : UploadFile := {|
  fieldname := "images"; originalname := "a.xpng";
  mimetype := "image/png"; size := 1024
|}.

Definition body_empty : Body := {|
  b_title := None; b_type := None; b_breed := None;
  b_age := None; b_weight := None; b_price := None;
  b_location := None; b_description := None; b_forEid := None
|}.

(** The listings carried by the [201] responses, in order. *)
Fixpoint created_listings (resps : list Response) : list Listing :=
  match resps with
  | [] => []
  | Created l :: rest => l :: created_listings rest
  | _ :: rest => created_listings rest
  end.

(** What a file part must satisfy for [upload.array('images', 5)]. *)
Definition accepted_part (f : UploadFile) : Prop :=
  fieldname f = "images" /\ fileFilter f = true /\ size f <= fileSize_limit.




Definition jpg_file : UploadFile := {|
  fieldname := "images"; originalname := "PHOTO.JPG";
  mimetype := "image/jpeg"; size := 2048
|}.

Definition gif_file : UploadFile := {|
  fieldname := "images"; originalname := "anim.gif";
  mimetype := "image/gif"; size := 2048
|}.

End BackendSpec.

(* ------------------------------------------------------------------------ *)
(** ** Backend theorems *)

Module BackendProofs.
Import Backend BackendSpec.
Local Open Scope Z_scope.

Lemma step_ids (toISO : Z -> string) (ls : list Listing) (r : Request) :
  match snd (step toISO ls r) with
  | Created l => id l = Z.of_nat (List.length ls) + 1 /\
                 List.length (fst (step toISO ls r)) = S (List.length ls)
  | _ => fst (step toISO ls r) = ls
  end.
Proof.
  destruct r as [|body files now]; simpl; [reflexivity|].
  destruct (upload_array "images" 5 now files) as [stored|e]; simpl; [|reflexivity].
  split; [reflexivity|].
  rewrite length_app; simpl; lia.
Qed.

Lemma run_from_ids (toISO : Z -> string) (rs : list Request) :
  forall ls, exists k,
    created_ids (snd (run_from toISO ls rs)) = zseq (Z.of_nat (List.length ls) + 1) k.
Proof.
  induction rs as [|r rs IH]; intros ls; simpl.
  - exists O; reflexivity.
  - pose proof (step_ids toISO ls r) as Hs.
    destruct (step toISO ls r) as [ls1 resp] eqn:E.
    destruct (run_from toISO ls1 rs) as [ls2 resps] eqn:E2.
    destruct (IH ls1) as [k Hk]. rewrite E2 in Hk. simpl in Hk, Hs |- *.
    destruct resp; simpl in Hs |- *;
      try (subst ls1; exists k; exact Hk).
    destruct Hs as [Hid Hlen].
    exists (S k). simpl. rewrite Hid, Hk, Hlen. f_equal. f_equal. lia.
Qed.

Lemma zseq_ge (s : Z) (k : nat) : forall x, In x (zseq s k) -> s <= x.
Proof.
  revert s; induction k as [|k IH]; intros s x Hin; simpl in Hin; [contradiction|].
  destruct Hin as [<-|Hin]; [lia|]. specialize (IH _ _ Hin); lia.
Qed.

Lemma zseq_NoDup (s : Z) (k : nat) : NoDup (zseq s k).
Proof.
  revert s; induction k as [|k IH]; intros s; simpl; constructor; auto.
  intros Hin. apply zseq_ge in Hin. lia.
Qed.

Lemma zseq_nth (s : Z) (k : nat) :
  forall i a, nth_error (zseq s k) i = Some a -> a = s + Z.of_nat i.
Proof.
  revert s; induction k as [|k IH]; intros s i a H.
  - destruct i; discriminate.
  - destruct i as [|i]; simpl in H.
    + injection H as <-; lia.
    + apply IH in H; lia.
Qed.

(** C2: within one process lifetime (a run of requests from the empty
    [listings] array), the identifiers returned by successful POSTs are
    pairwise distinct, strictly increasing, and each exceeds the previous one
    by exactly one. *)
Theorem listing_ids_consecutive (toISO : Z -> string) (rs : list Request) :
  let ids := created_ids (snd (run toISO rs)) in
  NoDup ids /\
  (forall i j a b, (i < j)%nat -> nth_error ids i = Some a ->
                   nth_error ids j = Some b -> a < b) /\
  (forall i a b, nth_error ids i = Some a ->
                 nth_error ids (S i) = Some b -> b = a + 1).
Proof.
  intros ids. destruct (run_from_ids toISO rs []) as [k Hk].
  unfold ids, run. rewrite Hk. split; [|split].
  - apply zseq_NoDup.
  - intros i j a b Hij Ha Hb. apply zseq_nth in Ha. apply zseq_nth in Hb. lia.
  - intros i a b Ha Hb. apply zseq_nth in Ha. apply zseq_nth in Hb. lia.
Qed.

(** C1 (code bug): the form field [age = "0"] parses to the integer 0, yet the
    created listing has no [age], because [parseInt(age) || undefined] also
    discards the falsy value 0. *)
Theorem age_zero_is_dropped (toISO : Z -> string) :
  JS.parseInt_field (b_age body_age_zero) = Some 0 /\
  exists l, step toISO [] (PostListings body_age_zero [] 0) = ([l], Created l) /\
            age l = None.
Proof.
  split; [reflexivity|].
  eexists; split; [reflexivity|reflexivity].
Qed.

(** C3 (code bug): a part whose extension is [.xpng] passes [fileFilter],
    since the unanchored [/jpeg|jpg|png/] only looks for the substring [png],
    and the listing is created: the collection grows by one. *)
Theorem xpng_upload_accepted (toISO : Z -> string) :
  JS.extname (originalname xpng_file) = ".xpng" /\
  fileFilter xpng_file = true /\
  exists l, step toISO [] (PostListings body_empty [xpng_file] 0) = ([l], Created l) /\
            images l = ["/uploads/0-a.xpng"].
Proof.
  split; [reflexivity|]. split; [reflexivity|].
  eexists; split; reflexivity.
Qed.

(** A request rejected by multer leaves the [listings] array as it was. *)
Lemma upload_error_keeps_listings (toISO : Z -> string) (ls : list Listing)
    (body : Body) (files : list UploadFile) (now : Z) (e : UploadError) :
  upload_array "images" 5 now files = inr e ->
  step toISO ls (PostListings body files now) = (ls, ErrorResponse 500 e).
Proof. intros H; simpl; rewrite H; reflexivity. Qed.

End BackendProofs.

(* ------------------------------------------------------------------------ *)
(** ** Definitions used by the Payments statements *)

Module PaymentsSpec.
Import Payments.
Local Open Scope Z_scope.

(** [term] occurs in [field] once both are lower-cased. *)
Definition ci_substring (term field : string) : Prop :=
  exists pre post, JS.toLowerCase field = (pre ++ JS.toLowerCase term ++ post)%string.

(** The search as the spec words it: the term is a case-insensitive
    substring of the buyer, the seller, the order identifier or the payment
    method. *)
Definition search_spec (term : string) (p : Payment) : Prop :=
  (exists b, buyer p = Some b /\ ci_substring term b) \/
  (exists s, seller p = Some s /\ ci_substring term s) \/
  ci_substring term (orderId p) \/
  ci_substring term (paymentMethod p).

Definition reverse_direction (d : Direction) : Direction :=
  match d with Asc => Desc | Desc => Asc end.

Definition direction_sign (d : Direction) : Z :=
  match d with Asc => 1 | Desc => -1 end.

(** A nullable string compared as the empty string when it is null. *)
Definition nullable_as_empty (o : option string) : string :=
  match o with Some s => s | None => "" end.

(** The comparators as the spec words them: date by timestamp with a missing
    date (null or empty) at epoch 0, amount numerically, buyer / seller /
    status with [localeCompare], null strings as [""]. *)
Definition spec_compare (localeCompare : string -> string -> Z)
    (getTime : string -> Z) (c : string) (a b : Payment) : Z :=
  let epoch (d : option string) :=
    match d with
    | None => 0
    | Some s => if String.eqb s "" then 0 else getTime s
    end in
  if String.eqb c "date" then epoch (date a) - epoch (date b)
  else if String.eqb c "amount" then amount a - amount b
  else if String.eqb c "buyer" then
    localeCompare (nullable_as_empty (buyer a)) (nullable_as_empty (buyer b))
  else if String.eqb c "seller" then
    localeCompare (nullable_as_empty (seller a)) (nullable_as_empty (seller b))
  else if String.eqb c "status" then localeCompare (status a) (status b)
  else 0.

(** [order] with other [subtotal] and [tax]. *)
Definition with_subtotal_tax (order : RawOrder) (s t : Z) : RawOrder := {|
  o_id := o_id order; o_orderId := o_orderId order; o_buyer := o_buyer order;
  o_seller := o_seller order; o_buyerId := o_buyerId order;
  o_total := o_total order; o_subtotal := s; o_tax := t;
  o_paymentMethod := o_paymentMethod order;
  o_paymentDetails := o_paymentDetails order; o_status := o_status order;
  o_date := o_date order; o_items := o_items order
|}.

Definition raw_order (i : string) (b : option string) (bid : option Z)
    (amt : Z) (st : string) : RawOrder := {|
  o_id := i; o_orderId := "ORD-" ++ i; o_buyer := b; o_seller := None;
  o_buyerId := bid; o_total := amt; o_subtotal := amt; o_tax := 0;
  o_paymentMethod := "stripe"; o_paymentDetails := None; o_status := st;
  o_date := None; o_items := None
|}.

(** An order with neither buyer name nor buyer identifier. *)
Definition anonymous_order : RawOrder := raw_order "7" None None 500 "pending".

(** The two records of the spec's examples. *)
Definition payment_A : Payment := transform (raw_order "1" (Some "A") (Some 1) 100 "pending").
Definition payment_B : Payment := transform (raw_order "2" (Some "B") (Some 2) 50 "completed").

Definition view_of (ps : list Payment) (col : option string) (d : Direction) : View := {|
  payments := ps; searchTerm := ""; sortColumn := col; sortDirection := d;
  isLoading := false; toasts := []; console := []
|}.

(** Details with a bank name, no account number and a payment intent. *)
Definition bank_name_and_intent : Details := {|
  bankName := Some "HBL"; accountNumber := None;
  stripePaymentIntentId := Some "pi_1"
|}.

End PaymentsSpec.

(* ------------------------------------------------------------------------ *)
(** ** Lemmas on the JavaScript primitives and on sorting *)

Module JSFacts.
Local Open Scope string_scope.

Lemma startsWith_spec (s t : string) :
  JS.startsWith s t = true <-> exists post, s = t ++ post.
Proof.
  revert s; induction t as [|c t IH]; intros s; simpl.
  - split; [intros _; exists s; reflexivity | intros _; destruct s; reflexivity].
  - destruct s as [|d s].
    + split; [discriminate | intros [post H]; discriminate].
    + simpl. rewrite andb_true_iff, IH, Ascii.eqb_eq. split.
      * intros [-> [post ->]]. exists post; reflexivity.
      * intros [post H]. injection H as -> ->. split; [reflexivity|]. exists post; reflexivity.
Qed.

Lemma includes_unfold (s t : string) :
  JS.includes s t =
  JS.startsWith s t ||
  match s with EmptyString => false | String _ s' => JS.includes s' t end.
Proof. destruct s; reflexivity. Qed.

Lemma includes_spec (s t : string) :
  JS.includes s t = true <-> exists pre post, s = pre ++ t ++ post.
Proof.
  induction s as [|c s IH]; rewrite includes_unfold, orb_true_iff, startsWith_spec.
  - split.
    + intros [[post H]|H]; [|discriminate]. exists "", post. exact H.
    + intros [pre [post H]]. left. destruct pre; [exists post; exact H|discriminate].
  - rewrite IH. split.
    + intros [[post H]|[pre [post H]]].
      * exists "", post. exact H.
      * exists (String c pre), post. rewrite H. reflexivity.
    + intros [pre [post H]]. destruct pre as [|d pre].
      * left. exists post. exact H.
      * right. injection H as _ H. exists pre, post. exact H.
Qed.

Lemma includes_empty (s : string) : JS.includes s "" = true.
Proof. destruct s; reflexivity. Qed.

Lemma toLowerCase_empty (s : string) : JS.toLowerCase s = "" -> s = "".
Proof. destruct s; [reflexivity | discriminate]. Qed.

End JSFacts.

Module SortFacts.
Import Payments.
Local Open Scope Z_scope.

Section Insertion.
Context {A : Type} (cmp : A -> A -> Z).
Hypothesis cmp_antisym : forall a b, cmp b a = - cmp a b.
Let R (a b : A) : Prop := cmp a b <= 0.

Lemma insert_by_perm (x : A) (l : list A) : Permutation (insert_by cmp x l) (x :: l).
Proof.
  induction l as [|y l IH]; simpl; [reflexivity|].
  destruct (cmp x y <=? 0); [reflexivity|].
  rewrite IH. apply perm_swap.
Qed.

Lemma sort_by_perm (l : list A) : Permutation (sort_by cmp l) l.
Proof.
  induction l as [|x l IH]; simpl; [reflexivity|].
  rewrite insert_by_perm, IH. reflexivity.
Qed.

Lemma insert_by_hd (x y : A) (l : list A) :
  R y x -> HdRel R y l -> HdRel R y (insert_by cmp x l).
Proof.
  intros Hyx Hl. destruct l as [|z l]; simpl.
  - constructor; exact Hyx.
  - destruct (cmp x z <=? 0); constructor; [exact Hyx|].
    inversion Hl; assumption.
Qed.

Lemma insert_by_sorted (x : A) (l : list A) :
  Sorted R l -> Sorted R (insert_by cmp x l).
Proof.
  induction l as [|y l IH]; intros Hs; simpl.
  - constructor; constructor.
  - destruct (cmp x y <=? 0) eqn:E.
    + apply Z.leb_le in E. constructor; [exact Hs | constructor; exact E].
    + apply Z.leb_gt in E. inversion Hs as [|? ? Hl Hhd]; subst.
      constructor; [apply IH; exact Hl|].
      apply insert_by_hd; [unfold R; rewrite cmp_antisym; lia | exact Hhd].
Qed.

Lemma sort_by_sorted (l : list A) : Sorted R (sort_by cmp l).
Proof.
  induction l as [|x l IH]; simpl; [constructor|].
  apply insert_by_sorted; exact IH.
Qed.

End Insertion.

End SortFacts.

(* ------------------------------------------------------------------------ *)
(** ** Payments view theorems *)

Module PaymentsProofs.
Import Payments PaymentsSpec JSFacts SortFacts.
Local Open Scope Z_scope.

(** C4: when [axios.get] rejects, [fetchPayments] settles normally (the
    rejection is caught), loading is switched off, the payments list is left
    as it was and exactly one error notification is added; from the state at
    mount the view then shows the empty "No Payments Found" screen. *)
Theorem fetch_failure_fails_soft (message : string) (v : View) :
  fetchPayments (Rejected message) v =
    (setIsLoading false
       (add_toast fetch_error_message
          (add_console "Error fetching payments:" (setIsLoading true v))),
     inl tt) /\
  isLoading (fst (fetchPayments (Rejected message) v)) = false /\
  payments (fst (fetchPayments (Rejected message) v)) = payments v /\
  toasts (fst (fetchPayments (Rejected message) v)) =
    (toasts v ++ [fetch_error_message])%list /\
  (forall localeCompare getTime toLocaleDateString,
     payments (fst (fetchPayments (Rejected message) initial_view)) = [] /\
     render localeCompare getTime toLocaleDateString
       (fst (fetchPayments (Rejected message) initial_view)) = NoPaymentsFound).
Proof.
  repeat split; reflexivity.
Qed.

(** C5 (counterexample): an order with neither buyer nor buyer identifier
    gets the buyer ["Buyer ID: Unknown"], not ["Unknown"]. *)
Lemma anonymous_buyer_display :
  o_buyer anonymous_order = None /\ o_buyerId anonymous_order = None /\
  buyer (transform anonymous_order) = Some "Buyer ID: Unknown" /\
  buyer (transform anonymous_order) <> Some "Unknown".
Proof.
  split; [reflexivity|]. split; [reflexivity|]. split; [reflexivity|].
  intros H; discriminate H.
Qed.

(** C5 (amended): the buyer is the raw buyer when it is a non-empty string;
    otherwise ["Buyer ID: n"] when the buyer identifier [n] is present and
    non-zero, and ["Buyer ID: Unknown"] when it is absent or zero.  The
    seller is the raw seller when it is a non-empty string, otherwise
    ["Unknown Seller"]. *)
Theorem buyer_seller_fallbacks (order : RawOrder) :
  (forall b, o_buyer order = Some b -> b <> "" -> buyer (transform order) = Some b) /\
  (JS.truthy_str (o_buyer order) = false ->
     (forall n, o_buyerId order = Some n -> n <> 0 ->
        buyer (transform order) = Some ("Buyer ID: " ++ JS.z_to_string n)) /\
     (o_buyerId order = None \/ o_buyerId order = Some 0 ->
        buyer (transform order) = Some "Buyer ID: Unknown")) /\
  (forall s, o_seller order = Some s -> s <> "" -> seller (transform order) = Some s) /\
  (JS.truthy_str (o_seller order) = false ->
     seller (transform order) = Some "Unknown Seller").
Proof.
  unfold transform, JS.or_str, JS.truthy_str, buyer_fallback; simpl.
  split; [|split; [|split]].
  - intros b -> Hb. apply String.eqb_neq in Hb. rewrite Hb. reflexivity.
  - intros Hf. destruct (o_buyer order) as [b|].
    + destruct (String.eqb b "") eqn:E; [|discriminate].
      split.
      * intros n -> Hn. apply Z.eqb_neq in Hn. rewrite Hn. reflexivity.
      * intros [-> | ->]; reflexivity.
    + split.
      * intros n -> Hn. apply Z.eqb_neq in Hn. rewrite Hn. reflexivity.
      * intros [-> | ->]; reflexivity.
  - intros s -> Hs. apply String.eqb_neq in Hs. rewrite Hs. reflexivity.
  - intros Hf. destruct (o_seller order) as [s|]; [|reflexivity].
    destruct (String.eqb s "") eqn:E; [reflexivity|discriminate].
Qed.

(** One nullable field of the search: its code test against the spec's. *)
Lemma field_search (o : option string) (term : string) :
  (JS.truthy_str o && JS.includes (JS.toLowerCase (JS.or_str o "")) (JS.toLowerCase term)
   = true -> exists b, o = Some b /\ ci_substring term b) /\
  ((exists b, o = Some b /\ ci_substring term b) ->
   (JS.truthy_str o && JS.includes (JS.toLowerCase (JS.or_str o "")) (JS.toLowerCase term)
    = true) \/ term = "").
Proof.
  unfold ci_substring; split.
  - destruct o as [b|]; simpl; [|discriminate].
    destruct (String.eqb b "") eqn:E; simpl; [discriminate|].
    rewrite includes_spec. intros H. exists b. split; [reflexivity|exact H].
  - intros [b [-> [pre [post H]]]]. simpl.
    destruct (String.eqb b "") eqn:E; simpl.
    + apply String.eqb_eq in E. subst b. simpl in H. right.
      apply toLowerCase_empty.
      destruct pre; [|discriminate]. simpl in H.
      destruct (JS.toLowerCase term); [reflexivity|discriminate].
    + left. apply includes_spec. exists pre, post. exact H.
Qed.

Lemma search_match_spec (term : string) (p : Payment) :
  search_match term p = true <-> search_spec term p.
Proof.
  unfold search_match, search_spec.
  pose proof (field_search (buyer p) term) as [Hb1 Hb2].
  pose proof (field_search (seller p) term) as [Hs1 Hs2].
  rewrite !orb_true_iff.
  unfold ci_substring in *. rewrite !includes_spec. split.
  - intros [[[Hb|Hs]|Ho]|Hm]; auto.
  - intros [Hb|[Hs|[Ho|Hm]]]; auto.
    + destruct (Hb2 Hb) as [H| ->]; [auto|].
      left; right. exists "", (JS.toLowerCase (orderId p)). reflexivity.
    + destruct (Hs2 Hs) as [H| ->]; [auto|].
      left; right. exists "", (JS.toLowerCase (orderId p)). reflexivity.
Qed.

(** C6: a payment is kept by the search exactly when the term is a
    case-insensitive substring of its buyer, seller, order identifier or
    payment method; the empty term keeps every payment. *)
Theorem search_is_ci_substring (v : View) (p : Payment) :
  (In p (filteredPayments v) <-> In p (payments v) /\ search_spec (searchTerm v) p) /\
  (forall ps, filter (search_match "") ps = ps).
Proof.
  split.
  - unfold filteredPayments. rewrite filter_In, search_match_spec. reflexivity.
  - induction ps as [|q ps IH]; [reflexivity|]. simpl.
    assert (H : search_match "" q = true).
    { apply search_match_spec. right; right; left.
      exists "", (JS.toLowerCase (orderId q)). reflexivity. }
    rewrite H, IH. reflexivity.
Qed.

Section Comparator.
Variable localeCompare : string -> string -> Z.
Variable getTime : string -> Z.

Lemma compare_payments_antisym (v : View) :
  (forall s t, localeCompare t s = - localeCompare s t) ->
  forall a b, compare_payments localeCompare getTime v b a =
              - compare_payments localeCompare getTime v a b.
Proof.
  intros Hlc a b. unfold compare_payments.
  destruct (sortColumn v) as [c|]; [|reflexivity].
  destruct (sortDirection v);
    repeat match goal with |- context [String.eqb ?x ?y] => destruct (String.eqb x y) end;
    try rewrite Hlc; lia.
Qed.

End Comparator.

(** C7: clicking the active column reverses the direction and keeps the
    column; clicking another column selects it in ascending order.  For each
    of the five sortable columns the comparator is the direction's sign times
    the spec's comparator (timestamp with a missing date at 0, amount
    numerically, [localeCompare] on buyer / seller / status with null
    strings as [""]), and the displayed ordering is a rearrangement of the
    searched payments in which each row precedes the next by that
    comparator. *)
Theorem sort_toggle_and_order (localeCompare : string -> string -> Z)
    (getTime : string -> Z)
    (Hlc : forall s t, localeCompare t s = - localeCompare s t)
    (v : View) (column : string) :
  (sortColumn v = Some column ->
     sortColumn (handleSort column v) = Some column /\
     sortDirection (handleSort column v) = reverse_direction (sortDirection v)) /\
  (sortColumn v <> Some column ->
     sortColumn (handleSort column v) = Some column /\
     sortDirection (handleSort column v) = Asc) /\
  (forall c a b, sortColumn v = Some c ->
     In c ["date"; "amount"; "buyer"; "seller"; "status"] ->
     compare_payments localeCompare getTime v a b =
       direction_sign (sortDirection v) * spec_compare localeCompare getTime c a b) /\
  Permutation (sortedPayments localeCompare getTime v) (filteredPayments v) /\
  LocallySorted (fun a b => compare_payments localeCompare getTime v a b <= 0)
    (sortedPayments localeCompare getTime v).
Proof.
  split; [|split; [|split; [|split]]].
  - intros H. unfold handleSort. rewrite H, String.eqb_refl.
    split; [simpl; exact H | reflexivity].
  - intros H. unfold handleSort. destruct (sortColumn v) as [c|].
    + destruct (String.eqb c column) eqn:E.
      * apply String.eqb_eq in E. subst c. contradiction.
      * split; reflexivity.
    + split; reflexivity.
  - intros c a b Hc Hin. unfold compare_payments, spec_compare. rewrite Hc.
    unfold date_value, JS.truthy_str, JS.or_str, nullable_as_empty.
    simpl in Hin.
    destruct Hin as [<-|[<-|[<-|[<-|[<-|[]]]]]]; simpl;
      repeat match goal with
             | |- context [match ?o with Some _ => _ | None => _ end] => destruct o
             | |- context [String.eqb ?x ""] => destruct (String.eqb_spec x "") as [->|]
             end; simpl; reflexivity.
  - apply sort_by_perm.
  - apply Sorted_LocallySorted_iff, sort_by_sorted.
    apply compare_payments_antisym; exact Hlc.
Qed.

Lemma filter_all {A} (l : list A) : filter (fun _ => true) l = l.
Proof. induction l as [|x l IH]; simpl; [reflexivity|]. rewrite IH; reflexivity. Qed.

(** C8: the "all-payments" tab shows every row of the searched and sorted
    list and every other tab the rows of that list whose status equals the
    tab's name case-insensitively; the tab counts are taken over all fetched
    payments (before the search): their number for "all-payments", the
    number with that status for the others; the table shows these tabs once
    the payments are loaded and non-empty. *)
Theorem status_tabs (localeCompare : string -> string -> Z) (getTime : string -> Z)
    (toLocaleDateString : string -> string) (v : View) :
  (forall tab, filterPaymentsByStatus localeCompare getTime v tab =
     filter (fun p => String.eqb tab "all-payments" ||
                      String.eqb (JS.toLowerCase (status p)) (JS.toLowerCase tab))
       (sort_by (compare_payments localeCompare getTime v)
          (filter (search_match (searchTerm v)) (payments v)))) /\
  tab_triggers v =
    map (fun tab => (tab, if String.eqb tab "all-payments" then List.length (payments v)
                          else List.length (filter (fun p => String.eqb
                                 (JS.toLowerCase (status p)) (JS.toLowerCase tab))
                                 (payments v))))
      tabs /\
  (isLoading v = false -> payments v <> [] ->
     render localeCompare getTime toLocaleDateString v =
       TabsScreen (tab_triggers v)
         (map (fun tab => (tab, map (render_row toLocaleDateString)
                                  (filterPaymentsByStatus localeCompare getTime v tab)))
            tabs)).
Proof.
  split; [|split].
  - intros tab. unfold filterPaymentsByStatus, sortedPayments, filteredPayments.
    destruct (String.eqb tab "all-payments"); simpl.
    + rewrite filter_all. reflexivity.
    + reflexivity.
  - reflexivity.
  - intros Hl Hp. unfold render. rewrite Hl.
    destruct (payments v); [contradiction|reflexivity].
Qed.

(** C9 (counterexample): details with a bank name, no account number and a
    payment intent render as "Stripe Payment", although more than the
    payment intent is present. *)
Lemma bank_name_with_intent_is_stripe :
  bankName bank_name_and_intent = Some "HBL" /\
  accountNumber bank_name_and_intent = None /\
  formatPaymentDetails (Some bank_name_and_intent) = "Stripe Payment" /\
  formatPaymentDetails (Some bank_name_and_intent) <> "N/A".
Proof.
  split; [reflexivity|]. split; [reflexivity|]. split; [reflexivity|].
  intros H; discriminate H.
Qed.

(** C9 (amended): the details cell is "{bank} - {account}" when bank name
    and account number are both non-empty; otherwise "Stripe Payment" when a
    non-empty payment-intent identifier is present; otherwise "N/A", in
    particular for null details.  The date cell is "N/A" exactly when the
    date is null or empty (the locale date format never yields "N/A"). *)
Theorem details_and_date_cells (toLocaleDateString : string -> string)
    (Htl : forall s, toLocaleDateString s <> "N/A") (p : Payment) :
  let cell := cell_details (render_row toLocaleDateString p) in
  (paymentDetails p = None -> cell = "N/A") /\
  (forall d b a, paymentDetails p = Some d -> bankName d = Some b ->
     accountNumber d = Some a -> b <> "" -> a <> "" ->
     cell = (b ++ " - " ++ a)%string) /\
  (forall d, paymentDetails p = Some d ->
     JS.truthy_str (bankName d) && JS.truthy_str (accountNumber d) = false ->
     JS.truthy_str (stripePaymentIntentId d) = true -> cell = "Stripe Payment") /\
  (forall d, paymentDetails p = Some d ->
     JS.truthy_str (bankName d) && JS.truthy_str (accountNumber d) = false ->
     JS.truthy_str (stripePaymentIntentId d) = false -> cell = "N/A") /\
  (cell_date (render_row toLocaleDateString p) = "N/A" <->
     date p = None \/ date p = Some "").
Proof.
  intros cell. unfold cell, render_row, formatPaymentDetails. simpl.
  split; [|split; [|split; [|split]]].
  - intros ->; reflexivity.
  - intros d b a -> Hb Ha Hb' Ha'. rewrite Hb, Ha.
    apply String.eqb_neq in Hb', Ha'. simpl. rewrite Hb', Ha'. reflexivity.
  - intros d -> H1 H2. rewrite H1, H2. reflexivity.
  - intros d -> H1 H2. rewrite H1, H2. reflexivity.
  - unfold formatDate, JS.truthy_str, JS.or_str.
    destruct (date p) as [s|].
    + destruct (String.eqb s "") eqn:E; simpl.
      * apply String.eqb_eq in E; subst s. split; [intros _; right; reflexivity|reflexivity].
      * split; [intros H; exfalso; exact (Htl s H)|].
        intros [H|H]; [discriminate|]. injection H as ->. discriminate E.
    + split; [intros _; left; reflexivity|reflexivity].
Qed.

(** C10: the view model's [amount] is the raw [total] and its [method] the
    raw [paymentMethod]; [amount] does not depend on [subtotal] or [tax]. *)
Theorem amount_is_total (order : RawOrder) :
  amount (transform order) = o_total order /\
  method (transform order) = o_paymentMethod order /\
  (forall s t, amount (transform (with_subtotal_tax order s t)) =
               amount (transform order)).
Proof. split; [|split]; reflexivity. Qed.

(** The spec's sorting example: payments A (100) and B (50) sorted by amount
    ascending give [B; A]; clicking "amount" again gives [A; B]. *)
Lemma sort_toggle_and_order_witness :
  let v := view_of [payment_A; payment_B] (Some "amount") Asc in
  LocallySorted (fun a b => compare_payments (fun _ _ => 0) (fun _ => 0) v a b <= 0)
    (sortedPayments (fun _ _ => 0) (fun _ => 0) v) /\
  sortedPayments (fun _ _ => 0) (fun _ => 0) v = [payment_B; payment_A] /\
  sortDirection (handleSort "amount" v) = Desc /\
  sortedPayments (fun _ _ => 0) (fun _ => 0) (handleSort "amount" v) = [payment_A; payment_B].
Proof.
  intros v. split.
  - destruct (sort_toggle_and_order (fun _ _ => 0) (fun _ => 0)
                ltac:(intros; reflexivity) v "amount") as (_ & _ & _ & _ & H).
    exact H.
  - split; [vm_compute; reflexivity|]. split; vm_compute; reflexivity.
Defined.

(** A record with [date: null] shows "N/A" in the date cell. *)
Lemma details_and_date_cells_witness :
  (forall s, (fun _ : string => "17/10/2026") s <> "N/A") /\
  date payment_A = None /\
  cell_date (render_row (fun _ => "17/10/2026") payment_A) = "N/A".
Proof.
  assert (Htl : forall s, (fun _ : string => "17/10/2026") s <> "N/A")
    by (intros s; simpl; discriminate).
  split; [exact Htl|]. split; [reflexivity|].
  destruct (details_and_date_cells (fun _ => "17/10/2026") Htl payment_A)
    as (_ & _ & _ & _ & H).
  apply H. left. reflexivity.
Defined.

End PaymentsProofs.

(* ------------------------------------------------------------------------ *)
(** ** Further properties of the backend *)

Module BackendExtra.
Import Backend BackendSpec BackendProofs.
Local Open Scope Z_scope.


Lemma run_from_store (toISO : Z -> string) (rs : list Request) :
  forall ls,
  fst (run_from toISO ls rs) = (ls ++ created_listings (snd (run_from toISO ls rs)))%list.
Proof.
  induction rs as [|r rs IH]; intros ls; simpl.
  - rewrite app_nil_r; reflexivity.
  - destruct r as [|body files now]; simpl.
    + specialize (IH ls). destruct (run_from toISO ls rs); exact IH.
    + destruct (upload_array "images" 5 now files) as [stored|e]; simpl.
      * specialize (IH (ls ++ [fst (post_listings_handler toISO ls body stored now)])%list).
        destruct (run_from toISO _ rs) as [ls2 resps]. simpl in *.
        rewrite IH, <- app_assoc. reflexivity.
      * specialize (IH ls). destruct (run_from toISO ls rs); exact IH.
Qed.

(** The listings array at any point of a process lifetime holds exactly the
    listings returned by the successful POSTs so far, in creation order. *)
Theorem store_is_created_in_order (toISO : Z -> string) (rs : list Request) :
  fst (run toISO rs) = created_listings (snd (run toISO rs)).
Proof. unfold run. rewrite run_from_store. reflexivity. Qed.


Lemma zseq_snoc (s : Z) (n : nat) : zseq s (S n) = (zseq s n ++ [s + Z.of_nat n])%list.
Proof.
  revert s; induction n as [|n IH]; intros s.
  - simpl. f_equal. f_equal. lia.
  - change (zseq s (S (S n))) with (s :: zseq (s + 1) (S n)).
    rewrite IH. simpl. f_equal. f_equal. f_equal. lia.
Qed.

Lemma step_store_ids (toISO : Z -> string) (ls : list Listing) (r : Request) :
  map id ls = zseq 1 (List.length ls) ->
  map id (fst (step toISO ls r)) = zseq 1 (List.length (fst (step toISO ls r))).
Proof.
  intros H. pose proof (step_ids toISO ls r) as Hs.
  destruct r as [|body files now]; simpl in *; [exact H|].
  destruct (upload_array "images" 5 now files) as [stored|e]; simpl in *; [|exact H].
  destruct Hs as [Hid _].
  rewrite map_app, length_app, H, Nat.add_comm.
  change (zseq 1 (S (List.length ls))) with (zseq 1 (1 + List.length ls)).
  simpl Nat.add. rewrite zseq_snoc. simpl map. f_equal. f_equal. lia.
Qed.

Lemma run_from_store_ids (toISO : Z -> string) (rs : list Request) :
  forall ls, map id ls = zseq 1 (List.length ls) ->
  map id (fst (run_from toISO ls rs)) = zseq 1 (List.length (fst (run_from toISO ls rs))).
Proof.
  induction rs as [|r rs IH]; intros ls H; simpl; [exact H|].
  pose proof (step_store_ids toISO ls r H) as H1.
  destruct (step toISO ls r) as [ls1 resp]. simpl in H1.
  specialize (IH ls1 H1). destruct (run_from toISO ls1 rs); exact IH.
Qed.

(** The identifier of a listing is its position in the array plus one: the
    identifiers in the array are [1, 2, ..., n]. *)
Theorem store_ids_are_positions (toISO : Z -> string) (rs : list Request) :
  map id (fst (run toISO rs)) = zseq 1 (List.length (fst (run toISO rs))).
Proof. apply run_from_store_ids. reflexivity. Qed.

Definition stored_of (now : Z) (f : UploadFile) : StoredFile :=
  {| sf_originalname := originalname f; filename := disk_filename now f |}.

Lemma upload_array_from_ok (now : Z) (files : list UploadFile) :
  forall acc out, (List.length acc <= 5)%nat ->
  upload_array_from "images" 5 now files acc = inl out <->
  ((List.length acc + List.length files <= 5)%nat /\ Forall accepted_part files /\
   out = (rev acc ++ map (stored_of now) files)%list).
Proof.
  induction files as [|f files IH]; intros acc out Hacc; cbn [upload_array_from].
  - simpl. rewrite app_nil_r. split.
    + intros H; injection H as <-. split; [lia|split; [constructor|reflexivity]].
    + intros (_ & _ & ->). reflexivity.
  - unfold accepted_part at 1.
    destruct (String.eqb_spec (fieldname f) "images") as [Hf|Hf]; cbn [orb negb].
    2:{ split; [discriminate|]. intros (_ & HF & _). inversion HF as [|? ? [Hf' _] _]. contradiction. }
    destruct (Nat.leb_spec 5 (List.length acc)) as [Hn|Hn]; cbn [orb negb].
    { split; [discriminate|]. intros (Hl & _ & _). simpl in Hl. lia. }
    destruct (fileFilter f) eqn:Hff; cbn [negb].
    2:{ split; [discriminate|]. intros (_ & HF & _). inversion HF as [|? ? (_ & Hff' & _) _]. congruence. }
    destruct (Z.ltb_spec fileSize_limit (size f)) as [Hs|Hs].
    { split; [discriminate|]. intros (_ & HF & _). inversion HF as [|? ? (_ & _ & Hs') _]. lia. }
    rewrite (IH (stored_of now f :: acc) out) by (simpl; lia). simpl.
    rewrite <- app_assoc. simpl. split.
    + intros (Hl & HF & ->). split; [lia|split; [constructor; [repeat split; assumption | exact HF] | reflexivity]].
    + intros (Hl & HF & ->). inversion HF; subst. split; [lia | split; [assumption | reflexivity]].
Qed.

(** [upload.array('images', 5)] succeeds exactly when there are at most five
    parts, each in the field [images], accepted by [fileFilter] and of at most
    5 MiB; the stored files are then the parts in order, each named
    ["{now}-{originalname}"]. *)
Theorem upload_array_ok_iff (now : Z) (files : list UploadFile) (out : list StoredFile) :
  upload_array "images" 5 now files = inl out <->
  ((List.length files <= 5)%nat /\ Forall accepted_part files /\
   out = map (stored_of now) files).
Proof.
  unfold upload_array. rewrite (upload_array_from_ok now files [] out) by (simpl; lia).
  reflexivity.
Qed.



(** A POST whose upload is not valid (more than five parts, or a part in
    another field, refused by [fileFilter] or larger than 5 MiB) is answered
    with an error and leaves the listings array unchanged. *)
Theorem invalid_post_rejected (toISO : Z -> string) (ls : list Listing) (body : Body)
    (files : list UploadFile) (now : Z)
    (Hbad : ~ ((List.length files <= 5)%nat /\ Forall accepted_part files)) :
  exists e, step toISO ls (PostListings body files now) = (ls, ErrorResponse 500 e).
Proof.
  simpl. destruct (upload_array "images" 5 now files) as [out|e] eqn:H.
  - exfalso. apply upload_array_ok_iff in H. destruct H as (Hl & HF & _). tauto.
  - exists e. reflexivity.
Qed.

Lemma invalid_post_rejected_witness :
  ~ ((List.length [gif_file] <= 5)%nat /\ Forall accepted_part [gif_file]) /\
  exists e, step (fun _ => "") [] (PostListings body_empty [gif_file] 0) = ([], ErrorResponse 500 e).
Proof.
  assert (Hbad : ~ ((List.length [gif_file] <= 5)%nat /\ Forall accepted_part [gif_file])).
  { intros (_ & HF). inversion HF as [|? ? (_ & Hff & _) _]. vm_compute in Hff. discriminate Hff. }
  split; [exact Hbad|].
  exact (invalid_post_rejected (fun _ => "") [] body_empty [gif_file] 0 Hbad).
Defined.

Lemma ext_scan_no_dot (rcs : list ascii) :
  forall i startPart end_ matchedSlash preDot,
  ~ In "."%char rcs ->
  fst (fst (fst (JS.ext_scan rcs i (-1) startPart end_ matchedSlash preDot))) = -1.
Proof.
  induction rcs as [|c rest IH]; intros i startPart end_ matchedSlash preDot Hno; simpl; [reflexivity|].
  assert (Hc : c <> "."%char) by (intros ->; apply Hno; left; reflexivity).
  assert (Hr : ~ In "."%char rest) by (intros H; apply Hno; right; exact H).
  destruct (Ascii.eqb c "/"); [destruct matchedSlash; simpl; [apply IH; exact Hr|reflexivity]|].
  destruct (end_ =? -1);
    (destruct (Ascii.eqb_spec c "."); [contradiction|apply IH; exact Hr]).
Qed.

Lemma extname_no_dot (p : string) :
  ~ In "."%char (list_ascii_of_string p) -> JS.extname p = "".
Proof.
  intros Hno. unfold JS.extname.
  pose proof (ext_scan_no_dot (rev (list_ascii_of_string p))
                (Z.of_nat (List.length (list_ascii_of_string p)) - 1) 0 (-1) true 0) as H.
  rewrite <- in_rev in H. specialize (H Hno).
  destruct (JS.ext_scan _ _ _ _ _ _ _) as [[[sd sp] e] pd]. simpl in H. subst sd.
  reflexivity.
Qed.

(** An uploaded file whose original name has no ['.'] is always refused by
    [fileFilter], whatever its name and MIME type contain. *)
Theorem fileFilter_needs_dot (f : UploadFile) :
  ~ In "."%char (list_ascii_of_string (originalname f)) -> fileFilter f = false.
Proof.
  intros Hno. unfold fileFilter. rewrite (extname_no_dot _ Hno). reflexivity.
Qed.

Lemma fileFilter_needs_dot_witness :
  ~ In "."%char (list_ascii_of_string "png") /\
  fileFilter {| fieldname := "images"; originalname := "png";
                mimetype := "image/png"; size := 10 |} = false.
Proof.
  assert (Hno : ~ In "."%char (list_ascii_of_string "png")).
  { simpl. intros [H|[H|[H|[]]]]; discriminate H. }
  split; [exact Hno|].
  exact (fileFilter_needs_dot {| fieldname := "images"; originalname := "png";
                                 mimetype := "image/png"; size := 10 |} Hno).
Defined.

(** Any file whose lower-cased extension is [.jpg], [.jpeg] or [.png] and whose
    MIME type is [image/jpeg], [image/jpg] or [image/png] passes [fileFilter]. *)
Theorem fileFilter_accepts_images (f : UploadFile) :
  In (JS.toLowerCase (JS.extname (originalname f))) [".jpg"; ".jpeg"; ".png"] ->
  In (mimetype f) ["image/jpeg"; "image/jpg"; "image/png"] ->
  fileFilter f = true.
Proof.
  intros He Hm. unfold fileFilter.
  destruct He as [He|[He|[He|[]]]]; rewrite <- He;
  (destruct Hm as [Hm|[Hm|[Hm|[]]]]; rewrite <- Hm; reflexivity).
Qed.

Lemma fileFilter_accepts_images_witness :
  In (JS.toLowerCase (JS.extname (originalname jpg_file))) [".jpg"; ".jpeg"; ".png"] /\
  In (mimetype jpg_file) ["image/jpeg"; "image/jpg"; "image/png"] /\
  fileFilter jpg_file = true.
Proof.
  assert (He : In (JS.toLowerCase (JS.extname (originalname jpg_file))) [".jpg"; ".jpeg"; ".png"])
    by (vm_compute; left; reflexivity).
  assert (Hm : In (mimetype jpg_file) ["image/jpeg"; "image/jpg"; "image/png"])
    by (vm_compute; left; reflexivity).
  split; [exact He|]. split; [exact Hm|].
  exact (fileFilter_accepts_images jpg_file He Hm).
Defined.









End BackendExtra.

(* ------------------------------------------------------------------------ *)
(** ** Further properties of the payments view *)

Module PaymentsExtra.
Import Payments PaymentsSpec JSFacts SortFacts PaymentsProofs.
Local Open Scope Z_scope.

(** *** Auxiliary facts *)

Lemma lower_char_idem (c : ascii) : JS.lower_char (JS.lower_char c) = JS.lower_char c.
Proof. destruct c as [[] [] [] [] [] [] [] []]; reflexivity. Qed.

Lemma toLowerCase_idem (s : string) : JS.toLowerCase (JS.toLowerCase s) = JS.toLowerCase s.
Proof. induction s as [|c s IH]; simpl; [reflexivity|]. rewrite lower_char_idem, IH. reflexivity. Qed.

Lemma string_app_assoc (a b c : string) : (a ++ (b ++ c) = (a ++ b) ++ c)%string.
Proof. induction a as [|x a IH]; simpl; [reflexivity|]. rewrite IH. reflexivity. Qed.

Lemma ci_substring_trans (t t' f : string) :
  ci_substring t t' -> ci_substring t' f -> ci_substring t f.
Proof.
  intros (a & b & Ht) (c & d & Hf). exists (c ++ a)%string, (b ++ d)%string.
  rewrite Hf, Ht. rewrite <- !string_app_assoc. reflexivity.
Qed.

Lemma search_empty (p : Payment) : search_match "" p = true.
Proof.
  unfold search_match. cbv zeta. change (JS.toLowerCase "") with "".
  rewrite (includes_empty (JS.toLowerCase (orderId p))).
  rewrite !orb_true_r. reflexivity.
Qed.

Lemma permutation_filter {A} (f : A -> bool) (l l' : list A) :
  Permutation l l' -> Permutation (filter f l) (filter f l').
Proof.
  induction 1 as [|x l l' _ IH|x y l|l l' l'' _ IH1 _ IH2]; simpl.
  - constructor.
  - destruct (f x); [constructor|]; exact IH.
  - destruct (f x), (f y); try constructor; reflexivity.
  - etransitivity; eassumption.
Qed.

Lemma filter_filter_length {A} (f g : A -> bool) (l : list A) :
  (List.length (filter g (filter f l)) <= List.length (filter g l))%nat.
Proof.
  induction l as [|x l IH]; simpl; [lia|].
  destruct (f x); simpl; destruct (g x); simpl; lia.
Qed.

Lemma filter_length_le {A} (f : A -> bool) (l : list A) :
  (List.length (filter f l) <= List.length l)%nat.
Proof. induction l as [|x l IH]; simpl; [lia|]. destruct (f x); simpl; lia. Qed.

Lemma sort_by_const {A} (cmp : A -> A -> Z) (l : list A) :
  (forall a b, cmp a b = 0) -> sort_by cmp l = l.
Proof.
  intros H0. induction l as [|x l IH]; simpl; [reflexivity|]. rewrite IH.
  destruct l as [|y l]; simpl; [reflexivity|]. rewrite H0. reflexivity.
Qed.

Lemma or_str_twice (o : option string) (d e : string) :
  d <> "" -> JS.or_str (Some (JS.or_str o d)) e = JS.or_str o d.
Proof.
  intros Hd. destruct o as [s|]; simpl.
  - destruct (String.eqb_spec s ""); simpl.
    + destruct (String.eqb_spec d ""); [contradiction|reflexivity].
    + destruct (String.eqb_spec s ""); [contradiction|reflexivity].
  - destruct (String.eqb_spec d ""); [contradiction|reflexivity].
Qed.

Section Views.
Variable localeCompare : string -> string -> Z.
Variable getTime : string -> Z.
Variable toLocaleDateString : string -> string.

Lemma sortedPayments_perm (v : View) :
  Permutation (sortedPayments localeCompare getTime v) (filteredPayments v).
Proof. unfold sortedPayments. apply sort_by_perm. Qed.

End Views.

(** *** Fetching *)

(** A successful fetch settles normally, replaces the payments by the
    transformed orders, switches loading off and adds no notification; the
    search and sort state are untouched. *)
Theorem fetch_success (l : list RawOrder) (v : View) :
  let '(v', r) := fetchPayments (Resolved (Some l)) v in
  r = inl tt /\ payments v' = map transform l /\ isLoading v' = false /\
  toasts v' = toasts v /\ searchTerm v' = searchTerm v /\
  sortColumn v' = sortColumn v /\ sortDirection v' = sortDirection v.
Proof. repeat split. Qed.

(** A response whose [data] is not an array makes [response.data.map] throw;
    the error is caught like a network failure: the payments are kept, one
    error notification is added and loading is switched off. *)
Theorem fetch_non_array_fails_soft (v : View) :
  let '(v', r) := fetchPayments (Resolved None) v in
  r = inl tt /\ payments v' = payments v /\ isLoading v' = false /\
  toasts v' = (toasts v ++ [fetch_error_message])%list.
Proof. repeat split. Qed.

(** Right after mount, a successful fetch of a non-empty list shows the tabs:
    the "all-payments" trigger counts every fetched order and the
    "all-payments" tab lists one row per order, in the order received (no
    column is sorted and the search is empty). *)
Theorem fetched_orders_rendered (localeCompare : string -> string -> Z)
    (getTime : string -> Z) (toLocaleDateString : string -> string)
    (l : list RawOrder) (Hl : l <> []) :
  let v := fst (fetchPayments (Resolved (Some l)) initial_view) in
  exists contents,
    render localeCompare getTime toLocaleDateString v = TabsScreen (tab_triggers v) contents /\
    hd_error (tab_triggers v) = Some ("all-payments", List.length l) /\
    hd_error contents =
      Some ("all-payments", map (render_row toLocaleDateString) (map transform l)).
Proof.
  simpl. unfold render. simpl.
  destruct l as [|o l]; [contradiction|]. simpl map.
  eexists. split; [reflexivity|]. split; [simpl; rewrite length_map; reflexivity|].
  simpl. unfold filterPaymentsByStatus, sortedPayments, filteredPayments. simpl.
  rewrite sort_by_const by reflexivity.
  rewrite (search_empty (transform o)).
  assert (Hf : forall ps, filter (search_match "") ps = ps).
  { induction ps as [|p ps IH]; simpl; [reflexivity|]. rewrite search_empty, IH. reflexivity. }
  rewrite Hf. reflexivity.
Qed.

Lemma fetched_orders_rendered_witness :
  [raw_order "1" (Some "Ali") None 100 "completed"] <> [] /\
  exists contents,
    render (fun _ _ => 0) (fun _ => 0) (fun _ => "")
      (fst (fetchPayments (Resolved (Some [raw_order "1" (Some "Ali") None 100 "completed"]))
              initial_view)) =
      TabsScreen [("all-payments", 1%nat); ("completed", 1%nat); ("pending", 0%nat);
                  ("cancelled", 0%nat)] contents.
Proof.
  assert (Hl : [raw_order "1" (Some "Ali") None 100 "completed"] <> []) by discriminate.
  split; [exact Hl|].
  destruct (fetched_orders_rendered (fun _ _ => 0) (fun _ => 0) (fun _ => "") _ Hl)
    as (contents & Hr & _ & _).
  exists contents. rewrite Hr. reflexivity.
Defined.

(** *** Rendering *)

(** For a fetched payment the buyer and seller cells show the transformed
    values: the cell's own ['Unknown'] fallback never fires, because the
    transform already substitutes a non-empty text. *)
Theorem fetched_cells_use_transform (toLocaleDateString : string -> string) (o : RawOrder) :
  cell_buyer (render_row toLocaleDateString (transform o)) =
    JS.or_str (o_buyer o) (buyer_fallback (o_buyerId o)) /\
  cell_seller (render_row toLocaleDateString (transform o)) =
    JS.or_str (o_seller o) "Unknown Seller".
Proof.
  split; simpl; apply or_str_twice; [unfold buyer_fallback|]; discriminate.
Qed.

(** No tab shows more rows than its trigger counts: the search and sort
    only drop and reorder payments. *)
Theorem tab_rows_within_counts (localeCompare : string -> string -> Z)
    (getTime : string -> Z) (v : View) :
  Forall (fun tc => (List.length (filterPaymentsByStatus localeCompare getTime v (fst tc))
                     <= snd tc)%nat) (tab_triggers v).
Proof.
  assert (Hstat : forall s, JS.toLowerCase s = s ->
    (List.length (filterPaymentsByStatus localeCompare getTime v s) <= status_count v s)%nat
    \/ s = "all-payments").
  { intros s Hs. destruct (String.eqb_spec s "all-payments") as [->|Hne]; [right; reflexivity|].
    left. unfold filterPaymentsByStatus, status_count.
    apply String.eqb_neq in Hne. rewrite Hne, Hs.
    rewrite (Permutation_length (permutation_filter _ _ _ (sortedPayments_perm localeCompare getTime v))).
    apply filter_filter_length. }
  repeat constructor; simpl.
  - change (filterPaymentsByStatus localeCompare getTime v "all-payments")
      with (sortedPayments localeCompare getTime v).
    rewrite (Permutation_length (sortedPayments_perm localeCompare getTime v)).
    apply filter_length_le.
  - destruct (Hstat "completed" eq_refl) as [H|H]; [exact H|discriminate].
  - destruct (Hstat "pending" eq_refl) as [H|H]; [exact H|discriminate].
  - destruct (Hstat "cancelled" eq_refl) as [H|H]; [exact H|discriminate].
Qed.

(** Every row of the "completed", "pending" and "cancelled" tabs gets the
    green, yellow and red badge respectively. *)
Theorem status_tab_colours (localeCompare : string -> string -> Z)
    (getTime : string -> Z) (v : View) :
  Forall (fun p => getStatusColor (status p) = "bg-green-500")
    (filterPaymentsByStatus localeCompare getTime v "completed") /\
  Forall (fun p => getStatusColor (status p) = "bg-yellow-500")
    (filterPaymentsByStatus localeCompare getTime v "pending") /\
  Forall (fun p => getStatusColor (status p) = "bg-red-500")
    (filterPaymentsByStatus localeCompare getTime v "cancelled").
Proof.
  unfold filterPaymentsByStatus. simpl.
  repeat split; apply Forall_forall; intros p Hp; apply filter_In in Hp as [_ Hp];
    apply String.eqb_eq in Hp; unfold getStatusColor; rewrite Hp; reflexivity.
Qed.

(** The badge colour and the search ignore letter case: lower-casing the
    status or the search term first changes nothing. *)
Theorem case_insensitive_colour_and_search (s t : string) (p : Payment) :
  getStatusColor (JS.toLowerCase s) = getStatusColor s /\
  search_match (JS.toLowerCase t) p = search_match t p.
Proof.
  unfold getStatusColor, search_match. rewrite !toLowerCase_idem. split; reflexivity.
Qed.

(** *** Sorting and searching *)

(** With no sort column, or a column the comparator does not know, the rows
    keep the order of the fetched list. *)
Theorem unsorted_keeps_order (localeCompare : string -> string -> Z)
    (getTime : string -> Z) (v : View)
    (Hc : forall c, sortColumn v = Some c ->
                    ~ In c ["date"; "amount"; "buyer"; "seller"; "status"]) :
  sortedPayments localeCompare getTime v = filteredPayments v.
Proof.
  unfold sortedPayments. apply sort_by_const. intros a b. unfold compare_payments.
  destruct (sortColumn v) as [c|]; [|reflexivity].
  specialize (Hc c eq_refl).
  destruct (String.eqb_spec c "date"); [subst; exfalso; apply Hc; simpl; tauto|].
  destruct (String.eqb_spec c "amount"); [subst; exfalso; apply Hc; simpl; tauto|].
  destruct (String.eqb_spec c "buyer"); [subst; exfalso; apply Hc; simpl; tauto|].
  destruct (String.eqb_spec c "seller"); [subst; exfalso; apply Hc; simpl; tauto|].
  destruct (String.eqb_spec c "status"); [subst; exfalso; apply Hc; simpl; tauto|].
  reflexivity.
Qed.

Lemma unsorted_keeps_order_witness :
  let v := view_of [payment_A; payment_B] (Some "method") Asc in
  (forall c, sortColumn v = Some c -> ~ In c ["date"; "amount"; "buyer"; "seller"; "status"]) /\
  sortedPayments (fun _ _ => 0) (fun _ => 0) v = [payment_A; payment_B].
Proof.
  assert (Hc : forall c, sortColumn (view_of [payment_A; payment_B] (Some "method") Asc) = Some c ->
                 ~ In c ["date"; "amount"; "buyer"; "seller"; "status"]).
  { intros c Hc. injection Hc as <-. simpl.
    intros [H|[H|[H|[H|[H|[]]]]]]; discriminate H. }
  split; [exact Hc|].
  exact (unsorted_keeps_order (fun _ _ => 0) (fun _ => 0) _ Hc).
Defined.

(** Clicking the same column twice restores its direction when it was already
    the sort column, and otherwise leaves it sorted descending. *)
Theorem handleSort_twice (column : string) (v : View) :
  sortColumn (handleSort column (handleSort column v)) = Some column /\
  sortDirection (handleSort column (handleSort column v)) =
    match sortColumn v with
    | Some c => if String.eqb c column then sortDirection v else Desc
    | None => Desc
    end.
Proof.
  assert (Hcol : forall w, sortColumn (handleSort column w) = Some column).
  { intros w. unfold handleSort. destruct (sortColumn w) as [c|] eqn:Hw; [|reflexivity].
    destruct (String.eqb_spec c column) as [->|_]; [exact Hw|reflexivity]. }
  assert (Hdir : forall w, sortDirection (handleSort column w) =
            match sortColumn w with
            | Some c => if String.eqb c column then reverse_direction (sortDirection w) else Asc
            | None => Asc
            end).
  { intros w. unfold handleSort. destruct (sortColumn w) as [c|]; [|reflexivity].
    destruct (String.eqb c column); reflexivity. }
  split; [apply Hcol|]. rewrite Hdir, Hcol, String.eqb_refl, Hdir.
  destruct (sortColumn v) as [c|]; [destruct (String.eqb c column)|]; simpl;
    [destruct (sortDirection v)| |]; reflexivity.
Qed.

(** Sorting never changes which rows a tab shows, only their order. *)
Theorem handleSort_same_rows (localeCompare : string -> string -> Z)
    (getTime : string -> Z) (column : string) (v : View) (tab : string) :
  Permutation (filterPaymentsByStatus localeCompare getTime (handleSort column v) tab)
              (filterPaymentsByStatus localeCompare getTime v tab).
Proof.
  assert (Hf : filteredPayments (handleSort column v) = filteredPayments v).
  { unfold handleSort. destruct (sortColumn v); [destruct (String.eqb _ _)|]; reflexivity. }
  assert (Hp : Permutation (sortedPayments localeCompare getTime (handleSort column v))
                           (sortedPayments localeCompare getTime v)).
  { rewrite sortedPayments_perm, Hf, <- (sortedPayments_perm localeCompare getTime v).
    reflexivity. }
  unfold filterPaymentsByStatus. destruct (String.eqb tab "all-payments"); [exact Hp|].
  apply permutation_filter. exact Hp.
Qed.

(** A longer search term only narrows the result: a payment found by a term
    is found by every case-insensitive substring of that term. *)
Theorem search_narrowing (term term' : string) (p : Payment)
    (Hsub : ci_substring term term') (Hm : search_match term' p = true) :
  search_match term p = true.
Proof.
  apply search_match_spec. apply search_match_spec in Hm.
  destruct Hm as [(b & Hb & Hs)|[(s & Hs' & Hs)|[Hs|Hs]]].
  - left. exists b. split; [exact Hb|]. exact (ci_substring_trans _ _ _ Hsub Hs).
  - right; left. exists s. split; [exact Hs'|]. exact (ci_substring_trans _ _ _ Hsub Hs).
  - right; right; left. exact (ci_substring_trans _ _ _ Hsub Hs).
  - right; right; right. exact (ci_substring_trans _ _ _ Hsub Hs).
Qed.

Lemma search_narrowing_witness :
  ci_substring "rd" "ORD-1" /\ search_match "ORD-1" payment_A = true /\
  search_match "rd" payment_A = true.
Proof.
  assert (Hsub : ci_substring "rd" "ORD-1") by (exists "o", "-1"; reflexivity).
  assert (Hm : search_match "ORD-1" payment_A = true) by reflexivity.
  split; [exact Hsub|]. split; [exact Hm|].
  exact (search_narrowing "rd" "ORD-1" payment_A Hsub Hm).
Defined.

End PaymentsExtra.
